(** * pixel_pusher_gen: prompt-to-sprite generator

    A shallow embedding of [scripts/pixel_pusher_gen.py] and the properties
    of its colour resolver, shape resolver, renderer and command line.

    Python values are modelled as the script uses them:
    - a [str] is a sequence of Unicode code points ([list N]); lone
      surrogates are ordinary elements of it, as in CPython;
    - [bytes] are a [list N] of values below 256;
    - an exception is a value of [exn], and a call that may raise returns a
      [result];
    - the drawing context is the list of primitive operations it received. *)

From Stdlib Require Import List NArith Ascii String DecimalString Bool Arith Lia.
Import ListNotations.

Local Open Scope list_scope.
Local Open Scope N_scope.

(** ** Python runtime: exceptions, [str], [bytes] *)

Module Py.

Inductive exn : Type :=
| UnicodeEncodeError
| ValueError
| OSError
| SystemExit (status : N).

Inductive result (A : Type) : Type :=
| Ok (a : A)
| Raise (e : exn).
Arguments Ok {A} a.
Arguments Raise {A} e.

Definition bind {A B} (m : result A) (k : A -> result B) : result B :=
  match m with
  | Ok a => k a
  | Raise e => Raise e
  end.

Definition str := list N.
Definition bytes := list N.

(** A string literal of the script, as code points. *)
Definition lit (s : string) : str :=
  map N_of_ascii (list_ascii_of_string s).
Arguments lit s%_string.

(** [x.startswith(prefix)] on code points. *)
Fixpoint startswith (prefix s : str) : bool :=
  match prefix, s with
  | [], _ => true
  | _ :: _, [] => false
  | a :: prefix', b :: s' => (a =? b) && startswith prefix' s'
  end.

(** [sub in s]: substring membership. *)
Fixpoint contains (s sub : str) : bool :=
  startswith sub s ||
  match s with
  | [] => false
  | _ :: s' => contains s' sub
  end.

(** [any(x in s for x in subs)]. *)
Definition any_in (subs : list str) (s : str) : bool :=
  existsb (contains s) subs.

Definition is_ascii (c : N) : bool := c <? 128.
Definition is_surrogate (c : N) : bool := (0xD800 <=? c) && (c <=? 0xDFFF).

Definition ascii_lower (c : N) : N :=
  if (65 <=? c) && (c <=? 90) then c + 32 else c.

Section Lower.
(** The lower-case mapping of the Unicode character database for the
    cased code points outside ASCII (the table behind CPython's
    [_PyUnicode_ToLowerFull], with the context rule for capital sigma):
    it receives the whole string, the position and the code point, and
    gives the code points that replace it.  The table is data of the
    interpreter, not of this repository. *)
Variable to_lower_full : str -> nat -> N -> str.

(** One code point of [str.lower()].  ASCII letters are folded
    arithmetically; surrogates are uncased and stay as they are. *)
Definition lower_ucs4 (s : str) (i : nat) (c : N) : str :=
  if is_ascii c then [ascii_lower c]
  else if is_surrogate c then [c]
  else to_lower_full s i c.

Fixpoint lower_from (s : str) (i : nat) (rest : str) : str :=
  match rest with
  | [] => []
  | c :: rest' => lower_ucs4 s i c ++ lower_from s (S i) rest'
  end.

(** [s.lower()]. *)
Definition lower (s : str) : str := lower_from s 0 s.
End Lower.

(** [s.encode()]: UTF-8, strict error handler.  A surrogate code point
    cannot be encoded and raises [UnicodeEncodeError]. *)
Definition utf8_char (c : N) : result bytes :=
  if c <? 0x80 then Ok [c]
  else if c <? 0x800 then
    Ok [N.lor 0xC0 (N.shiftr c 6); N.lor 0x80 (N.land c 0x3F)]
  else if is_surrogate c then Raise UnicodeEncodeError
  else if c <? 0x10000 then
    Ok [N.lor 0xE0 (N.shiftr c 12);
        N.lor 0x80 (N.land (N.shiftr c 6) 0x3F);
        N.lor 0x80 (N.land c 0x3F)]
  else
    Ok [N.lor 0xF0 (N.land (N.shiftr c 18) 0x07);
        N.lor 0x80 (N.land (N.shiftr c 12) 0x3F);
        N.lor 0x80 (N.land (N.shiftr c 6) 0x3F);
        N.lor 0x80 (N.land c 0x3F)].

Fixpoint encode (s : str) : result bytes :=
  match s with
  | [] => Ok []
  | c :: s' =>
      bind (utf8_char c) (fun b =>
      bind (encode s') (fun bs => Ok (b ++ bs)))
  end.

(** Value of one hexadecimal digit, as [int(_, 16)] reads it. *)
Definition hex_value (c : N) : option N :=
  if (48 <=? c) && (c <=? 57) then Some (c - 48)
  else if (97 <=? c) && (c <=? 102) then Some (c - 87)
  else if (65 <=? c) && (c <=? 70) then Some (c - 55)
  else None.

Fixpoint int16_acc (acc : N) (s : str) : result N :=
  match s with
  | [] => Ok acc
  | c :: s' =>
      match hex_value c with
      | Some d => int16_acc (16 * acc + d) s'
      | None => Raise ValueError
      end
  end.

(** [int(s, 16)] on runs of hexadecimal digits, the only strings the
    script passes to it: the digits are read most significant first, and
    the empty string or a character that is no digit raises [ValueError].
    (Signs, blanks, underscores and a [0x] prefix, which Python also
    accepts, are not modelled.) *)
Definition int16 (s : str) : result N :=
  match s with
  | [] => Raise ValueError
  | _ => int16_acc 0 s
  end.

(** [s[lo:hi]] for [0 <= lo <= hi]. *)
Definition slice (s : str) (lo hi : nat) : str :=
  firstn (hi - lo) (skipn lo s).

(** [str(n)] for a non-negative integer. *)
Definition str_of_int (n : N) : str :=
  lit (NilZero.string_of_uint (N.to_uint n)).

End Py.

(** ** [hashlib.md5]: the MD5 message digest (RFC 1321) on 32-bit words *)

Module MD5.

Definition word := N.
Definition mask32 : N := 0xFFFFFFFF.

Definition add32 (a b : word) : word := N.land (a + b) mask32.
Definition not32 (a : word) : word := N.lxor a mask32.
Definition rotl32 (x : word) (n : N) : word :=
  N.land (N.lor (N.shiftl x n) (N.shiftr x (32 - n))) mask32.

Definition shifts : list N :=
  [7; 12; 17; 22; 7; 12; 17; 22; 7; 12; 17; 22; 7; 12; 17; 22;
   5;  9; 14; 20; 5;  9; 14; 20; 5;  9; 14; 20; 5;  9; 14; 20;
   4; 11; 16; 23; 4; 11; 16; 23; 4; 11; 16; 23; 4; 11; 16; 23;
   6; 10; 15; 21; 6; 10; 15; 21; 6; 10; 15; 21; 6; 10; 15; 21].

Definition sines : list word :=
  [0xd76aa478; 0xe8c7b756; 0x242070db; 0xc1bdceee;
   0xf57c0faf; 0x4787c62a; 0xa8304613; 0xfd469501;
   0x698098d8; 0x8b44f7af; 0xffff5bb1; 0x895cd7be;
   0x6b901122; 0xfd987193; 0xa679438e; 0x49b40821;
   0xf61e2562; 0xc040b340; 0x265e5a51; 0xe9b6c7aa;
   0xd62f105d; 0x02441453; 0xd8a1e681; 0xe7d3fbc8;
   0x21e1cde6; 0xc33707d6; 0xf4d50d87; 0x455a14ed;
   0xa9e3e905; 0xfcefa3f8; 0x676f02d9; 0x8d2a4c8a;
   0xfffa3942; 0x8771f681; 0x6d9d6122; 0xfde5380c;
   0xa4beea44; 0x4bdecfa9; 0xf6bb4b60; 0xbebfbc70;
   0x289b7ec6; 0xeaa127fa; 0xd4ef3085; 0x04881d05;
   0xd9d4d039; 0xe6db99e5; 0x1fa27cf8; 0xc4ac5665;
   0xf4292244; 0x432aff97; 0xab9423a7; 0xfc93a039;
   0x655b59c3; 0x8f0ccc92; 0xffeff47d; 0x85845dd1;
   0x6fa87e4f; 0xfe2ce6e0; 0xa3014314; 0x4e0811a1;
   0xf7537e82; 0xbd3af235; 0x2ad7d2bb; 0xeb86d391].

Record state : Type := mkState { sA : word; sB : word; sC : word; sD : word }.

Definition init : state :=
  mkState 0x67452301 0xefcdab89 0x98badcfe 0x10325476.

(** Round function and message index of step [i]. *)
Definition round_fn (i : N) (b c d : word) : word :=
  if i <? 16 then N.lor (N.land b c) (N.land (not32 b) d)
  else if i <? 32 then N.lor (N.land d b) (N.land (not32 d) c)
  else if i <? 48 then N.lxor b (N.lxor c d)
  else N.lxor c (N.lor b (not32 d)).

Definition msg_index (i : N) : N :=
  if i <? 16 then i
  else if i <? 32 then (5 * i + 1) mod 16
  else if i <? 48 then (3 * i + 5) mod 16
  else (7 * i) mod 16.

Definition step (m : list word) (st : state) (i : N) : state :=
  let f := round_fn i (sB st) (sC st) (sD st) in
  let k := nth (N.to_nat i) sines 0 in
  let w := nth (N.to_nat (msg_index i)) m 0 in
  let s := nth (N.to_nat i) shifts 0 in
  let f' := add32 (add32 (add32 f (sA st)) k) w in
  mkState (sD st) (add32 (sB st) (rotl32 f' s)) (sB st) (sC st).

Definition indices : list N := map N.of_nat (seq 0 64).

(** Little-endian 32-bit words of a byte block. *)
Fixpoint words_of (n : nat) (bs : list N) : list word :=
  match n with
  | O => []
  | S n' =>
      match bs with
      | b0 :: b1 :: b2 :: b3 :: bs' =>
          (b0 + N.shiftl b1 8 + N.shiftl b2 16 + N.shiftl b3 24)
            :: words_of n' bs'
      | _ => []
      end
  end.

Definition compress (st : state) (block : list N) : state :=
  let m := words_of 16 block in
  let st' := fold_left (step m) indices st in
  mkState (add32 (sA st) (sA st')) (add32 (sB st) (sB st'))
          (add32 (sC st) (sC st')) (add32 (sD st) (sD st')).

Definition le_bytes (n : nat) (x : N) : list N :=
  map (fun i => N.land (N.shiftr x (8 * N.of_nat i)) 0xFF) (seq 0 n).

(** Padding: one [0x80] byte, zeros up to 56 modulo 64, then the bit
    length as a 64-bit little-endian integer. *)
Definition pad (msg : list N) : list N :=
  let len := N.of_nat (List.length msg) in
  let zeros := N.to_nat ((55 + 64 - len mod 64) mod 64) in
  msg ++ [0x80] ++ repeat 0 zeros ++ le_bytes 8 ((8 * len) mod 2 ^ 64).

Fixpoint blocks (n : nat) (st : state) (bs : list N) : state :=
  match n with
  | O => st
  | S n' => blocks n' (compress st (firstn 64 bs)) (skipn 64 bs)
  end.

(** [hashlib.md5(msg).digest()]: sixteen bytes. *)
Definition digest (msg : list N) : list N :=
  let p := pad msg in
  let st := blocks (List.length p / 64) init p in
  le_bytes 4 (sA st) ++ le_bytes 4 (sB st) ++
  le_bytes 4 (sC st) ++ le_bytes 4 (sD st).

Definition hex_digit (d : N) : N := if d <? 10 then 48 + d else 87 + d.

Definition hex_of_byte (b : N) : Py.str :=
  [hex_digit (b / 16); hex_digit (b mod 16)].

(** [hashlib.md5(msg).hexdigest()]: thirty-two lower-case hex digits. *)
Definition hexdigest (msg : list N) : Py.str :=
  flat_map hex_of_byte (digest msg).

End MD5.

(** ** [PIL.Image] and [PIL.ImageDraw]: the drawing context as a trace *)

Module PIL.

(** An RGBA tuple [(r, g, b, a)]. *)
Definition color : Type := N * N * N * N.

(** One primitive call on an [ImageDraw] object.  [fill=None] is [None]. *)
Inductive draw_op : Type :=
| rectangle (xy : N * N * N * N) (fill : option color) (outline : color)
| ellipse (xy : N * N * N * N) (fill : option color) (outline : color)
| polygon (xy : list (N * N)) (fill : option color) (outline : color).

(** An image: how it was created and, in order, what was drawn on it.
    [ImageDraw.Draw(img)] draws into [img] itself, so the context and the
    image are one object here. *)
Record image : Type := mkImage {
  mode : Py.str;
  size : N * N;
  background : color;
  drawn : list draw_op
}.

(** [Image.new(mode, size, color)]. *)
Definition new (m : Py.str) (sz : N * N) (bg : color) : image :=
  mkImage m sz bg [].

(** One call [draw.<primitive>(...)]. *)
Definition draw (img : image) (op : draw_op) : image :=
  mkImage (mode img) (size img) (background img) (drawn img ++ [op]).

End PIL.

(** ** The script *)

Module Gen.
Import Py.

(** What a run leaves behind: the lines printed to standard output and
    the images handed to [img.save] that were written, oldest first. *)
Record world : Type := mkWorld {
  stdout : list str;
  files : list (str * PIL.image)
}.

(** A statement of the script: it changes the world and either completes
    with a value or raises. *)
Definition M (A : Type) : Type := world -> world * result A.

Definition ret {A} (a : A) : M A := fun w => (w, Ok a).
Definition raise {A} (e : exn) : M A := fun w => (w, Raise e).
Definition seq_ {A B} (m : M A) (k : A -> M B) : M B :=
  fun w =>
    match m w with
    | (w', Ok a) => k a w'
    | (w', Raise e) => (w', Raise e)
    end.
Definition lift {A} (r : result A) : M A := fun w => (w, r).

Notation "x <- m ;; k" := (seq_ m (fun x => k))
  (at level 61, m at next level, right associativity).
Notation "m ;;; k" := (seq_ m (fun _ => k))
  (at level 61, right associativity).

(** [print(line)]: standard output as a text stream that takes every
    line; how the terminal encodes it is outside the model. *)
Definition print (line : str) : M unit :=
  fun w => (mkWorld (stdout w ++ [line]) (files w), Ok tt).

(** [str(color)] of a 4-tuple of integers, as the f-string formats it. *)
Definition str_of_color (c : PIL.color) : str :=
  let '(r, g, b, a) := c in
  lit "(" ++ str_of_int r ++ lit ", " ++ str_of_int g ++ lit ", " ++
  str_of_int b ++ lit ", " ++ str_of_int a ++ lit ")".

Section Script.
(** The interpreter's lower-case table (see [Py.lower]). *)
Variable to_lower_full : str -> nat -> N -> str.

(** The outcome of [img.save(path)] in the image library and the file
    system: [None] when the file is written, the exception otherwise. *)
Variable save_error : str -> option exn.

Definition lower := Py.lower to_lower_full.

(** Lines 29-34: the colour from the digest of the lower-cased prompt. *)
Definition hash_color (prompt : str) : result PIL.color :=
  bind (encode prompt) (fun data =>
  let h := MD5.hexdigest data in
  bind (int16 (slice h 0 2)) (fun r =>
  bind (int16 (slice h 2 4)) (fun g =>
  bind (int16 (slice h 4 6)) (fun b =>
  Ok (r, g, b, 255))))).

Definition get_color (prompt : str) : result PIL.color :=
  let prompt := lower prompt in
  if contains prompt (lit "rusty") || contains prompt (lit "brown") then
    Ok (139, 69, 19, 255)
  else if contains prompt (lit "silver") || contains prompt (lit "basic")
          || contains prompt (lit "grey") then
    Ok (192, 192, 192, 255)
  else if contains prompt (lit "golden") || contains prompt (lit "gold")
          || contains prompt (lit "coin") then
    Ok (255, 215, 0, 255)
  else if contains prompt (lit "ray gun") then
    Ok (255, 0, 0, 255)
  else if contains prompt (lit "blacksmith") then
    Ok (105, 105, 105, 255)
  else if contains prompt (lit "explorer") then
    Ok (34, 139, 34, 255)
  else if contains prompt (lit "merchant") then
    Ok (70, 130, 180, 255)
  else if contains prompt (lit "gambler") then
    Ok (128, 0, 128, 255)
  else if contains prompt (lit "farmer") then
    Ok (154, 205, 50, 255)
  else if contains prompt (lit "scholar") then
    Ok (65, 105, 225, 255)
  else hash_color prompt.

Definition str_eqb (a b : str) : bool :=
  if list_eq_dec N.eq_dec a b then true else false.

Definition draw_shape (draw : PIL.image) (shape_type : str)
    (color : PIL.color) : PIL.image :=
  if str_eqb shape_type (lit "box") then
    let draw := PIL.draw draw
      (PIL.rectangle (4, 4, 27, 27) (Some color) (0, 0, 0, 255)) in
    PIL.draw draw
      (PIL.rectangle (6, 6, 25, 25) None (255, 255, 255, 100))
  else if str_eqb shape_type (lit "circle") then
    let draw := PIL.draw draw
      (PIL.ellipse (4, 4, 27, 27) (Some color) (0, 0, 0, 255)) in
    PIL.draw draw
      (PIL.ellipse (8, 8, 20, 20) None (255, 255, 255, 100))
  else if str_eqb shape_type (lit "gun") then
    PIL.draw draw
      (PIL.polygon [(8, 10); (24, 10); (24, 16); (14, 16); (14, 24); (8, 24)]
                   (Some color) (0, 0, 0, 255))
  else if str_eqb shape_type (lit "person") then
    let draw := PIL.draw draw
      (PIL.ellipse (10, 4, 22, 16) (Some (255, 220, 177, 255))
                   (0, 0, 0, 255)) in
    PIL.draw draw
      (PIL.rectangle (8, 16, 24, 30) (Some color) (0, 0, 0, 255))
  else
    PIL.draw draw
      (PIL.rectangle (8, 8, 24, 24) (Some color) (0, 0, 0, 255)).

Definition get_shape (prompt : str) : str :=
  let prompt := lower prompt in
  if contains prompt (lit "lootbox") || contains prompt (lit "box") then
    lit "box"
  else if contains prompt (lit "coin") || contains prompt (lit "money") then
    lit "circle"
  else if contains prompt (lit "gun") || contains prompt (lit "blaster") then
    lit "gun"
  else if any_in [lit "blacksmith"; lit "explorer"; lit "merchant";
                  lit "gambler"; lit "farmer"; lit "scholar"] prompt then
    lit "person"
  else lit "default".

(** [img.save(output_path)]: the image is recorded under the path unless
    the library or the file system refuses it. *)
Definition save (img : PIL.image) (output_path : str) : M unit :=
  fun w =>
    match save_error output_path with
    | Some e => (w, Raise e)
    | None => (mkWorld (stdout w) (files w ++ [(output_path, img)]), Ok tt)
    end.

Definition generate_image (output_path prompt : str) : M unit :=
  let img := PIL.new (lit "RGBA") (32, 32) (0, 0, 0, 0) in
  color <- lift (get_color prompt) ;;
  let shape := get_shape prompt in
  let img := draw_shape img shape color in
  save img output_path ;;;
  print (lit "Generated " ++ output_path ++ lit " with prompt '" ++ prompt
         ++ lit "' (Shape: " ++ shape ++ lit ", Color: "
         ++ str_of_color color ++ lit ")").

(** The [__main__] block; [argv] is [sys.argv], script name first. *)
Definition main (argv : list str) : M unit :=
  if (List.length argv <? 3)%nat then
    print (lit "Usage: python pixel_pusher_gen.py <output_path> <prompt>") ;;;
    raise (SystemExit 1)
  else
    let output_path := nth 1 argv [] in
    let prompt := nth 2 argv [] in
    generate_image output_path prompt.

(** The status the process exits with. *)
Definition exit_status (r : result unit) : N :=
  match r with
  | Ok _ => 0
  | Raise (SystemExit n) => n
  | Raise _ => 1
  end.

End Script.

(** A lower-case table with no entries: every code point outside ASCII is
    left as it is. *)
Definition uncased : str -> nat -> N -> str := fun _ _ c => [c].

(** An image library and file system that accept every path. *)
Definition writable : str -> option exn := fun _ => None.

Definition empty_world : world := mkWorld [] [].

End Gen.

(** ** The design document's reading of the resolvers

    The ordered keyword tables as the specification lists them, and the
    first-match-wins lookup it describes.  The theorems below compare the
    script's chains of [if] with these. *)

Module Spec.
Import Py.

(** First group, in order, one of whose keywords occurs in [s]. *)
Fixpoint first_match {A} (groups : list (list str * A)) (s : str)
    : option A :=
  match groups with
  | [] => None
  | (keywords, v) :: groups' =>
      if any_in keywords s then Some v else first_match groups' s
  end.

Definition color_groups : list (list str * PIL.color) :=
  [ ([lit "rusty"; lit "brown"],               (139, 69, 19, 255));
    ([lit "silver"; lit "basic"; lit "grey"],  (192, 192, 192, 255));
    ([lit "golden"; lit "gold"; lit "coin"],   (255, 215, 0, 255));
    ([lit "ray gun"],                          (255, 0, 0, 255));
    ([lit "blacksmith"],                       (105, 105, 105, 255));
    ([lit "explorer"],                         (34, 139, 34, 255));
    ([lit "merchant"],                         (70, 130, 180, 255));
    ([lit "gambler"],                          (128, 0, 128, 255));
    ([lit "farmer"],                           (154, 205, 50, 255));
    ([lit "scholar"],                          (65, 105, 225, 255)) ].

Definition shape_rules : list (list str * str) :=
  [ ([lit "lootbox"; lit "box"],  lit "box");
    ([lit "coin"; lit "money"],   lit "circle");
    ([lit "gun"; lit "blaster"],  lit "gun");
    ([lit "blacksmith"; lit "explorer"; lit "merchant";
      lit "gambler"; lit "farmer"; lit "scholar"], lit "person") ].

Definition shape_tags : list str :=
  [lit "box"; lit "circle"; lit "gun"; lit "person"; lit "default"].

(** The colour read off a digest: its first three bytes, opaque. *)
Definition digest_color (digest : list N) : PIL.color :=
  (nth 0 digest 0, nth 1 digest 0, nth 2 digest 0, 255).

(** A colour whose four components are bytes and whose alpha is 255. *)
Definition opaque_bytes (c : PIL.color) : Prop :=
  let '(r, g, b, a) := c in r <= 255 /\ g <= 255 /\ b <= 255 /\ a = 255.

Definition no_surrogate (s : str) : bool :=
  forallb (fun c => negb (is_surrogate c)) s.

Definition all_ascii (s : str) : bool := forallb is_ascii s.

(** The blank canvas of [generate_image]. *)
Definition blank : PIL.image :=
  PIL.new (lit "RGBA") (32, 32) (0, 0, 0, 0).

Definition usage : str :=
  lit "Usage: python pixel_pusher_gen.py <output_path> <prompt>".

End Spec.

(** ** Facts about the runtime model *)

Module PyFacts.
Import Py.

Lemma startswith_app (k s : str) :
  startswith k s = true <-> exists b, s = k ++ b.
Proof.
  revert s; induction k as [|a k IH]; intros s; simpl.
  - split; [intros _; now exists s | reflexivity].
  - destruct s as [|c s].
    + split; [discriminate | intros [b Hb]; discriminate].
    + rewrite andb_true_iff, N.eqb_eq, IH. split.
      * intros [-> [b ->]]. now exists b.
      * intros [b Hb]. injection Hb as -> ->. split; [reflexivity | now exists b].
Qed.

(** [contains] is substring membership. *)
Lemma contains_app (s k : str) :
  contains s k = true <-> exists a b, s = a ++ k ++ b.
Proof.
  induction s as [|c s IH].
  - simpl. rewrite orb_false_r, startswith_app. split.
    + intros [b Hb]. now exists [], b.
    + intros [a [b Hab]]. destruct a; [now exists b | discriminate].
  - cbn [contains]. rewrite orb_true_iff, startswith_app, IH. split.
    + intros [[b Hb] | [a [b Hab]]].
      * now exists [], b.
      * exists (c :: a), b. now rewrite Hab.
    + intros [a [b Hab]]. destruct a as [|c' a].
      * left. now exists b.
      * right. injection Hab as _ ->. now exists a, b.
Qed.

Lemma contains_empty (s : str) : contains s [] = true.
Proof. destruct s; reflexivity. Qed.

Section LowerFacts.
Variable to_lower_full : str -> nat -> N -> str.

Lemma lower_from_app (s : str) (i : nat) (a b : str) :
  lower_from to_lower_full s i (a ++ b) =
  lower_from to_lower_full s i a ++
  lower_from to_lower_full s (i + List.length a) b.
Proof.
  revert i; induction a as [|c a IH]; intros i; simpl.
  - now rewrite Nat.add_0_r.
  - rewrite IH, <- app_assoc. do 3 f_equal. lia.
Qed.

(** A run of code points that are ASCII and not upper-case letters
    passes through [lower] unchanged, wherever it stands. *)
Definition lower_ascii (k : str) : bool :=
  forallb (fun c => is_ascii c && (ascii_lower c =? c)) k.

Lemma lower_from_fixed (s : str) (i : nat) (k : str) :
  lower_ascii k = true -> lower_from to_lower_full s i k = k.
Proof.
  revert i; induction k as [|c k IH]; intros i H; simpl in *.
  - reflexivity.
  - apply andb_true_iff in H as [Hc Hk].
    apply andb_true_iff in Hc as [Ha Hl]. apply N.eqb_eq in Hl.
    unfold lower_ucs4. rewrite Ha, Hl. simpl. now rewrite IH.
Qed.

(** A lower-case keyword that occurs in the prompt as typed still
    occurs after [lower]. *)
Lemma contains_lower (s k : str) :
  lower_ascii k = true ->
  contains s k = true -> contains (lower to_lower_full s) k = true.
Proof.
  intros Hk H. apply contains_app in H as [a [b ->]].
  apply contains_app. unfold lower.
  rewrite !lower_from_app, (lower_from_fixed _ _ k Hk).
  eauto.
Qed.

(** On ASCII text [lower] is the letter-by-letter ASCII folding. *)
Lemma lower_from_ascii (s : str) (i : nat) (r : str) :
  forallb is_ascii r = true ->
  lower_from to_lower_full s i r = map ascii_lower r.
Proof.
  revert i; induction r as [|c r IH]; intros i H; simpl in *.
  - reflexivity.
  - apply andb_true_iff in H as [Hc Hr].
    unfold lower_ucs4. rewrite Hc. simpl. now rewrite IH.
Qed.
End LowerFacts.

Lemma ascii_lower_ascii (c : N) : is_ascii c = true -> is_ascii (ascii_lower c) = true.
Proof.
  unfold is_ascii, ascii_lower. intros H. apply N.ltb_lt in H.
  destruct ((65 <=? c) && (c <=? 90)) eqn:E; apply N.ltb_lt; [|lia].
  apply andb_true_iff in E as [_ E]. apply N.leb_le in E. lia.
Qed.

Lemma utf8_char_ok (c : N) :
  is_surrogate c = false -> exists b, utf8_char c = Ok b.
Proof.
  intros H. unfold utf8_char. rewrite H.
  destruct (c <? 128); [eauto|]. destruct (c <? 2048); [eauto|].
  destruct (c <? 65536); eauto.
Qed.

Lemma utf8_char_surrogate (c : N) :
  is_surrogate c = true -> utf8_char c = Raise UnicodeEncodeError.
Proof.
  intros H. unfold utf8_char. rewrite H.
  unfold is_surrogate in H. apply andb_true_iff in H as [H1 H2].
  apply N.leb_le in H1.
  destruct (c <? 128) eqn:E1; [apply N.ltb_lt in E1; lia|].
  destruct (c <? 2048) eqn:E2; [apply N.ltb_lt in E2; lia|].
  reflexivity.
Qed.

(** [encode] succeeds exactly on strings free of surrogates, and
    otherwise raises [UnicodeEncodeError]. *)
Lemma encode_total (s : str) :
  (forallb (fun c => negb (is_surrogate c)) s = true ->
     exists bs, encode s = Ok bs) /\
  (forallb (fun c => negb (is_surrogate c)) s = false ->
     encode s = Raise UnicodeEncodeError).
Proof.
  induction s as [|c s [IH1 IH2]]; simpl.
  - split; [eauto | discriminate].
  - destruct (is_surrogate c) eqn:E; simpl.
    + split; [discriminate | intros _].
      now rewrite utf8_char_surrogate.
    + destruct (utf8_char_ok c E) as [b ->]. simpl. split; intros H.
      * destruct (IH1 H) as [bs ->]. simpl. eauto.
      * now rewrite (IH2 H).
Qed.

Lemma hex_value_digit (d : N) :
  d < 16 -> hex_value (MD5.hex_digit d) = Some d.
Proof.
  intros H.
  assert (In d (map N.of_nat (seq 0 16))) as Hin.
  { apply in_map_iff. exists (N.to_nat d). split; [apply N2Nat.id|]. apply in_seq. lia. }
  simpl in Hin.
  repeat (destruct Hin as [<- | Hin]; [reflexivity|]). destruct Hin.
Qed.

(** Reading back the two hex digits of a byte gives the byte. *)
Lemma int16_hex_of_byte (b : N) :
  b < 256 -> int16 (MD5.hex_of_byte b) = Ok b.
Proof.
  intros H. unfold MD5.hex_of_byte, int16, int16_acc.
  assert (b / 16 < 16) by (apply N.Div0.div_lt_upper_bound; lia).
  assert (b mod 16 < 16) by (apply N.mod_lt; lia).
  rewrite !hex_value_digit by assumption.
  f_equal. pose proof (N.div_mod b 16). lia.
Qed.

End PyFacts.

Module MD5Facts.
Import MD5.

Lemma le_bytes_4 (x : N) :
  le_bytes 4 x =
  [N.land (N.shiftr x 0) 0xFF; N.land (N.shiftr x 8) 0xFF;
   N.land (N.shiftr x 16) 0xFF; N.land (N.shiftr x 24) 0xFF].
Proof. reflexivity. Qed.

Lemma land_byte (x : N) : N.land x 0xFF < 256.
Proof.
  change 0xFF with (N.ones 8). rewrite N.land_ones.
  apply N.mod_lt. discriminate.
Qed.

Lemma le_bytes_lt (n : nat) (x b : N) : In b (le_bytes n x) -> b < 256.
Proof.
  unfold le_bytes. intros H. apply in_map_iff in H as [i [<- _]].
  apply land_byte.
Qed.

(** The digest is sixteen bytes. *)
Lemma digest_length (msg : list N) : List.length (digest msg) = 16%nat.
Proof. unfold digest. now rewrite !length_app, !le_bytes_4. Qed.

Lemma digest_bytes (msg : list N) (b : N) : In b (digest msg) -> b < 256.
Proof.
  unfold digest. rewrite !in_app_iff.
  intros [H | [H | [H | H]]]; eapply le_bytes_lt; eassumption.
Qed.

(** The digest begins with three bytes, and the hex digest with the six
    digits that spell them. *)
Lemma digest_head (msg : list N) :
  exists r g b rest,
    digest msg = r :: g :: b :: rest /\ r < 256 /\ g < 256 /\ b < 256.
Proof.
  unfold digest. rewrite le_bytes_4. cbn [app].
  do 4 eexists. split; [reflexivity|].
  repeat split; apply land_byte.
Qed.

(** RFC 1321, appendix A.5: test suite. *)
Lemma md5_test_suite :
  hexdigest [] = Py.lit "d41d8cd98f00b204e9800998ecf8427e" /\
  hexdigest (Py.lit "a") = Py.lit "0cc175b9c0f1b6a831c399e269772661" /\
  hexdigest (Py.lit "abc") = Py.lit "900150983cd24fb0d6963f7d28e17f72" /\
  hexdigest (Py.lit "message digest") =
    Py.lit "f96b697d7cb7938d525a2f31aaf161d0" /\
  hexdigest (Py.lit "abcdefghijklmnopqrstuvwxyz") =
    Py.lit "c3fcd3d76192e4007dfb496cca67e13b" /\
  hexdigest (Py.lit "ABCDEFGHIJKLMNOPQRSTUVWXYZabcdefghijklmnopqrstuvwxyz0123456789") =
    Py.lit "d174ab98d277d9f5a5611c2c9f419d9f" /\
  hexdigest (Py.lit "12345678901234567890123456789012345678901234567890123456789012345678901234567890") =
    Py.lit "57edf4a22be3c955ac49da2e2107b67a".
Proof. vm_compute. repeat split. Qed.

End MD5Facts.

(** ** The colour and shape resolvers *)

Module GenFacts.
Import Py Gen.

(** Decide the next keyword test of an [if] chain. *)
Ltac next_keyword :=
  match goal with
  | |- context [contains ?s ?k] => destruct (contains s k) eqn:?
  end.

Ltac walk_chain := repeat (next_keyword; cbn [orb]; try reflexivity).

(** The hash fallback reads the first three digest bytes. *)
Lemma hash_color_digest (s : str) (data : bytes) :
  encode s = Ok data ->
  let h := MD5.hexdigest data in
  let d := MD5.digest data in
  int16 (slice h 0 2) = Ok (nth 0 d 0) /\
  int16 (slice h 2 4) = Ok (nth 1 d 0) /\
  int16 (slice h 4 6) = Ok (nth 2 d 0) /\
  hash_color s = Ok (Spec.digest_color d) /\
  Spec.opaque_bytes (Spec.digest_color d).
Proof.
  intros He. cbv zeta. unfold hash_color, Spec.digest_color, MD5.hexdigest.
  rewrite He. cbn [bind].
  destruct (MD5Facts.digest_head data) as (r & g & b & rest & -> & Hr & Hg & Hb).
  cbn [flat_map nth].
  change (slice ?h 0 2) with (firstn 2 h).
  unfold slice, MD5.hex_of_byte. cbn [app skipn firstn Nat.sub].
  fold (MD5.hex_of_byte r) (MD5.hex_of_byte g) (MD5.hex_of_byte b).
  rewrite !PyFacts.int16_hex_of_byte by assumption. cbn [bind].
  repeat split; try reflexivity; lia.
Qed.

Lemma hash_color_raise (s : str) (e : exn) :
  encode s = Raise e -> hash_color s = Raise e.
Proof. intros He. unfold hash_color. now rewrite He. Qed.

Lemma first_match_in {A} (groups : list (list str * A)) (s : str) (v : A) :
  Spec.first_match groups s = Some v -> In v (map snd groups).
Proof.
  induction groups as [|[kws v'] groups IH]; simpl; [discriminate|].
  destruct (any_in kws s); [intros [= ->]; now left | auto].
Qed.

Lemma color_groups_opaque :
  Forall Spec.opaque_bytes (map snd Spec.color_groups).
Proof. repeat constructor; simpl; lia. Qed.

Lemma str_eqb_eq (a b : str) : str_eqb a b = true <-> a = b.
Proof.
  unfold str_eqb. destruct (list_eq_dec N.eq_dec a b); split;
    intros H; (exact e || discriminate H || contradiction || reflexivity).
Qed.

Lemma str_eqb_neq (a b : str) : a <> b -> str_eqb a b = false.
Proof.
  intros H. destruct (str_eqb a b) eqn:E; [|reflexivity].
  apply str_eqb_eq in E. contradiction.
Qed.

Lemma ascii_no_surrogate (s : str) :
  Spec.all_ascii s = true -> Spec.no_surrogate (map ascii_lower s) = true.
Proof.
  unfold Spec.all_ascii, Spec.no_surrogate.
  induction s as [|c s IH]; simpl; [reflexivity|].
  intros H. apply andb_true_iff in H as [Hc Hs]. rewrite (IH Hs), andb_true_r.
  apply PyFacts.ascii_lower_ascii in Hc. unfold is_ascii in Hc.
  apply N.ltb_lt in Hc. unfold is_surrogate.
  destruct (55296 <=? ascii_lower c) eqn:E; [|reflexivity].
  apply N.leb_le in E. lia.
Qed.

(** What [hash_color] does, by whether the text can be encoded. *)
Lemma hash_color_cases (s : str) :
  (Spec.no_surrogate s = true /\
   exists data, encode s = Ok data /\
                hash_color s = Ok (Spec.digest_color (MD5.digest data))) \/
  (Spec.no_surrogate s = false /\ hash_color s = Raise UnicodeEncodeError).
Proof.
  destruct (PyFacts.encode_total s) as [H1 H2]. fold (Spec.no_surrogate s) in *.
  destruct (Spec.no_surrogate s).
  - left. split; [reflexivity|]. destruct (H1 eq_refl) as [data He].
    exists data. split; [assumption|]. apply (hash_color_digest s data He).
  - right. split; [reflexivity|]. apply hash_color_raise. now apply H2.
Qed.


Section Resolvers.
Variable to_lower_full : str -> nat -> N -> str.

Local Abbreviation lower := (Gen.lower to_lower_full).
Local Abbreviation get_color := (Gen.get_color to_lower_full).
Local Abbreviation get_shape := (Gen.get_shape to_lower_full).

(** [get_color] is the first-match lookup in the colour table, with
    the hash colour when no group matches. *)
Lemma get_color_table (p : str) :
  get_color p =
  match Spec.first_match Spec.color_groups (lower p) with
  | Some c => Ok c
  | None => hash_color (lower p)
  end.
Proof.
  unfold Gen.get_color, Spec.color_groups. cbv zeta.
  cbn [Spec.first_match any_in existsb].
  walk_chain.
Qed.

Lemma get_shape_table (p : str) :
  get_shape p =
  match Spec.first_match Spec.shape_rules (lower p) with
  | Some t => t
  | None => lit "default"
  end.
Proof.
  unfold Gen.get_shape, Spec.shape_rules. cbv zeta.
  cbn [Spec.first_match any_in existsb].
  walk_chain.
Qed.

Lemma get_shape_tag (p : str) : In (get_shape p) Spec.shape_tags.
Proof.
  unfold Gen.get_shape, Spec.shape_tags. cbv zeta.
  repeat match goal with
         | |- In (if ?b then _ else _) _ => destruct b
         end; simpl; auto 6.
Qed.

(** On ASCII prompts [lower] does not consult the Unicode table. *)
Lemma lower_ascii_prompt (p : str) :
  Spec.all_ascii p = true -> lower p = map ascii_lower p.
Proof. apply PyFacts.lower_from_ascii. Qed.

End Resolvers.

End GenFacts.

(** ** Properties of the script *)

Section Claims.
Import Py Gen.

Variable to_lower_full : str -> nat -> N -> str.
Variable save_error : str -> option exn.

Local Abbreviation lower := (Gen.lower to_lower_full).
Local Abbreviation get_color := (Gen.get_color to_lower_full).
Local Abbreviation get_shape := (Gen.get_shape to_lower_full).
Local Abbreviation generate_image := (Gen.generate_image to_lower_full save_error).
Local Abbreviation main := (Gen.main to_lower_full save_error).

(** C1.  [get_color] tests the lower-cased prompt against the ten keyword
    groups in their fixed order and returns the colour of the first group
    with a keyword that occurs in it.  In particular a prompt in which
    "golden", "gold" or "coin" occurs (after lower-casing, or as typed in
    lower case) and no keyword of the two earlier groups gets
    (255,215,0,255), and a prompt with both "golden" and "rusty" gets the
    colour of the earlier group, (139,69,19,255). *)
Theorem C1_get_color_first_match (p : str) :
  (forall c, Spec.first_match Spec.color_groups (lower p) = Some c ->
             get_color p = Ok c) /\
  (any_in [lit "golden"; lit "gold"; lit "coin"] (lower p) = true ->
   any_in [lit "rusty"; lit "brown"; lit "silver"; lit "basic"; lit "grey"]
          (lower p) = false ->
   get_color p = Ok (255, 215, 0, 255)) /\
  (any_in [lit "golden"; lit "gold"; lit "coin"] p = true ->
   any_in [lit "rusty"; lit "brown"; lit "silver"; lit "basic"; lit "grey"]
          (lower p) = false ->
   get_color p = Ok (255, 215, 0, 255)) /\
  (contains (lower p) (lit "golden") = true ->
   contains (lower p) (lit "rusty") = true ->
   get_color p = Ok (139, 69, 19, 255)).
Proof.
  assert (Hgold : any_in [lit "golden"; lit "gold"; lit "coin"] (lower p) = true ->
    any_in [lit "rusty"; lit "brown"; lit "silver"; lit "basic"; lit "grey"]
           (lower p) = false ->
    get_color p = Ok (255, 215, 0, 255)).
  { intros Hin Hout. rewrite GenFacts.get_color_table.
    unfold Spec.color_groups. cbn [Spec.first_match].
    cbn [any_in existsb] in Hin, Hout |- *.
    repeat (apply orb_false_iff in Hout; destruct Hout as [? Hout]).
    repeat match goal with H : contains _ _ = false |- _ => rewrite H; clear H end.
    cbn [orb]. now rewrite Hin. }
  repeat split.
  - intros c Hc. now rewrite GenFacts.get_color_table, Hc.
  - exact Hgold.
  - intros Hin. apply Hgold. cbn [any_in existsb] in *.
    repeat (apply orb_true_iff in Hin; destruct Hin as [Hin | Hin]);
      try discriminate;
      apply (PyFacts.contains_lower to_lower_full) in Hin;
      try reflexivity; unfold Gen.lower; rewrite Hin;
      now rewrite ?orb_true_r.
  - intros _ Hr. rewrite GenFacts.get_color_table.
    unfold Spec.color_groups. cbn [Spec.first_match any_in existsb].
    now rewrite Hr.
Qed.

(** C2.  [get_shape] checks the lower-cased prompt by substring, first
    match wins: lootbox/box, then coin/money, then gun/blaster, then the
    six professions, otherwise "default"; its result is one of the five
    tags; "a rusty coin" gives "circle" and "golden lootbox" gives "box". *)
Theorem C2_get_shape_first_match :
  (forall p,
     get_shape p =
     match Spec.first_match Spec.shape_rules (lower p) with
     | Some tag => tag
     | None => lit "default"
     end) /\
  (forall p, In (get_shape p) Spec.shape_tags) /\
  get_shape (lit "a rusty coin") = lit "circle" /\
  get_shape (lit "golden lootbox") = lit "box".
Proof.
  split; [exact (GenFacts.get_shape_table to_lower_full)|].
  split; [exact (GenFacts.get_shape_tag to_lower_full)|].
  split; reflexivity.
Qed.

(** C3 (amended).  When the lower-cased prompt contains no keyword of the
    ten colour groups and no surrogate code point, so that its UTF-8
    encoding exists, [get_color] returns the colour whose red, green and
    blue are the first three byte pairs of the hexadecimal MD5 digest of
    that encoding, read as hexadecimal integers (that is, the first three
    digest bytes), with alpha 255. *)
Theorem C3_hash_color_of_encodable_prompt (p : str) :
  Spec.first_match Spec.color_groups (lower p) = None ->
  Spec.no_surrogate (lower p) = true ->
  exists data r g b,
    encode (lower p) = Ok data /\
    int16 (slice (MD5.hexdigest data) 0 2) = Ok r /\
    int16 (slice (MD5.hexdigest data) 2 4) = Ok g /\
    int16 (slice (MD5.hexdigest data) 4 6) = Ok b /\
    (r, g, b, 255) = Spec.digest_color (MD5.digest data) /\
    get_color p = Ok (r, g, b, 255).
Proof.
  intros Hnone Hs.
  destruct (PyFacts.encode_total (lower p)) as [Henc _].
  destruct (Henc Hs) as [data He].
  destruct (GenFacts.hash_color_digest _ _ He) as (Hr & Hg & Hb & Hc & _).
  exists data. do 3 eexists.
  repeat split; try eassumption.
  rewrite GenFacts.get_color_table, Hnone. exact Hc.
Qed.

(** C4.  For every colour, [draw_shape] issues exactly the fixed
    primitives of the tag, in order, on the 32x32 transparent canvas: two
    rectangles for "box", two ellipses for "circle", one six-point polygon
    for "gun", a skin-toned head ellipse and a body rectangle for "person",
    one rectangle for "default"; what the canvas held before is kept. *)
Theorem C4_draw_shape_primitives (color : PIL.color) :
  PIL.size Spec.blank = (32, 32) /\
  PIL.background Spec.blank = (0, 0, 0, 0) /\
  PIL.drawn Spec.blank = [] /\
  PIL.drawn (draw_shape Spec.blank (lit "box") color) =
    [PIL.rectangle (4, 4, 27, 27) (Some color) (0, 0, 0, 255);
     PIL.rectangle (6, 6, 25, 25) None (255, 255, 255, 100)] /\
  PIL.drawn (draw_shape Spec.blank (lit "circle") color) =
    [PIL.ellipse (4, 4, 27, 27) (Some color) (0, 0, 0, 255);
     PIL.ellipse (8, 8, 20, 20) None (255, 255, 255, 100)] /\
  PIL.drawn (draw_shape Spec.blank (lit "gun") color) =
    [PIL.polygon [(8, 10); (24, 10); (24, 16); (14, 16); (14, 24); (8, 24)]
                 (Some color) (0, 0, 0, 255)] /\
  PIL.drawn (draw_shape Spec.blank (lit "person") color) =
    [PIL.ellipse (10, 4, 22, 16) (Some (255, 220, 177, 255)) (0, 0, 0, 255);
     PIL.rectangle (8, 16, 24, 30) (Some color) (0, 0, 0, 255)] /\
  PIL.drawn (draw_shape Spec.blank (lit "default") color) =
    [PIL.rectangle (8, 8, 24, 24) (Some color) (0, 0, 0, 255)] /\
  (forall img tag,
     draw_shape img tag color =
     PIL.mkImage (PIL.mode img) (PIL.size img) (PIL.background img)
       (PIL.drawn img ++ PIL.drawn (draw_shape Spec.blank tag color))).
Proof.
  repeat split.
  intros img tag. unfold draw_shape.
  repeat match goal with
         | |- context [str_eqb ?a ?b] => destruct (str_eqb a b)
         end; unfold PIL.draw; cbn; now rewrite <- ?app_assoc.
Qed.

(** C5.  With the prompt "rusty blacksmith" the generator resolves the
    shape "person" and the colour (139,69,19,255), and the canvas it hands
    to [img.save] has received the person primitives: the skin-toned head
    ellipse and the body rectangle filled with that brown. *)
Theorem C5_rusty_blacksmith (output_path : str) (w : world) :
  let prompt := lit "rusty blacksmith" in
  let canvas :=
    PIL.mkImage (lit "RGBA") (32, 32) (0, 0, 0, 0)
      [PIL.ellipse (10, 4, 22, 16) (Some (255, 220, 177, 255)) (0, 0, 0, 255);
       PIL.rectangle (8, 16, 24, 30) (Some (139, 69, 19, 255)) (0, 0, 0, 255)] in
  get_shape prompt = lit "person" /\
  get_color prompt = Ok (139, 69, 19, 255) /\
  draw_shape Spec.blank (get_shape prompt) (139, 69, 19, 255) = canvas /\
  generate_image output_path prompt w =
    (save save_error canvas output_path ;;;
     print (lit "Generated " ++ output_path ++
            lit " with prompt 'rusty blacksmith' (Shape: person, Color: (139, 69, 19, 255))"))
      w.
Proof.
  cbv zeta. split; [reflexivity|]. split; [reflexivity|]. split; [reflexivity|].
  unfold Gen.generate_image, seq_ at 1, lift.
  change (Gen.get_color to_lower_full (lit "rusty blacksmith"))
    with (@Ok PIL.color (139, 69, 19, 255)).
  change (Gen.get_shape to_lower_full (lit "rusty blacksmith"))
    with (lit "person").
  reflexivity.
Qed.

(** C6 (amended).  The command line needs at least two positional
    arguments and ignores any further ones.  With fewer than two it prints
    the usage message to standard output and exits with status 1, and no
    file is written; with two or more it runs [generate_image] on the first
    two. *)
Theorem C6_usage_on_missing_arguments (argv : list str) (w : world) :
  ((List.length argv < 3)%nat ->
   main argv w =
     (mkWorld (stdout w ++ [Spec.usage]) (files w), Raise (SystemExit 1)) /\
   exit_status (snd (main argv w)) = 1 /\
   files (fst (main argv w)) = files w) /\
  (forall script output_path prompt extra,
     argv = script :: output_path :: prompt :: extra ->
     main argv w = generate_image output_path prompt w).
Proof.
  split.
  - intros H. unfold Gen.main.
    replace (List.length argv <? 3)%nat with true
      by (symmetry; now apply Nat.ltb_lt).
    repeat split.
  - intros script output_path prompt extra ->. reflexivity.
Qed.

(** C7 (amended).  [get_shape] returns one of the five tags for every
    prompt.  [get_color] returns a colour exactly when the lower-cased
    prompt contains a colour keyword or contains no surrogate code point
    (every ASCII prompt is such); otherwise the UTF-8 encoding of the
    fallback raises [UnicodeEncodeError], and nothing else is ever raised.
    For the empty prompt the shape is "default" and the colour is the one
    of the digest of the empty byte string, (212,29,140,255). *)
Theorem C7_resolution_total_on_encodable_text (p : str) :
  In (get_shape p) Spec.shape_tags /\
  ((exists c, get_color p = Ok c) <->
   (Spec.first_match Spec.color_groups (lower p) <> None \/
    Spec.no_surrogate (lower p) = true)) /\
  (Spec.all_ascii p = true -> exists c, get_color p = Ok c) /\
  (forall e, get_color p = Raise e -> e = UnicodeEncodeError) /\
  get_shape [] = lit "default" /\
  get_color [] = Ok (Spec.digest_color (MD5.digest [])) /\
  get_color [] = Ok (212, 29, 140, 255).
Proof.
  assert (Hiff : (exists c, get_color p = Ok c) <->
    (Spec.first_match Spec.color_groups (lower p) <> None \/
     Spec.no_surrogate (lower p) = true)).
  { rewrite GenFacts.get_color_table.
    destruct (Spec.first_match Spec.color_groups (lower p)) as [c|].
    - split; [intros _; left; discriminate | eauto].
    - destruct (GenFacts.hash_color_cases (lower p))
        as [[Hs (data & _ & ->)] | [Hs ->]]; rewrite Hs.
      + split; eauto.
      + split; [intros [c Hc]; discriminate | intros [H | H]; [now elim H | discriminate]]. }
  split; [apply GenFacts.get_shape_tag|].
  split; [exact Hiff|].
  split.
  { intros Ha. apply Hiff. right.
    unfold Gen.lower, Py.lower. rewrite PyFacts.lower_from_ascii by exact Ha.
    now apply GenFacts.ascii_no_surrogate. }
  split.
  { intros e. rewrite GenFacts.get_color_table.
    destruct (Spec.first_match Spec.color_groups (lower p)); [discriminate|].
    destruct (GenFacts.hash_color_cases (lower p))
      as [[_ (data & _ & ->)] | [_ ->]]; [discriminate | now intros [= <-]]. }
  split; [reflexivity|].
  split; vm_compute; reflexivity.
Qed.

(** C8.  The resolvers are functions of the prompt alone: equal prompts
    give equal colours and shapes, prompts that agree after lower-casing
    do too, and for two prompts without any colour keyword the colour is
    the same whenever the MD5 digests of their lower-cased texts are. *)
Theorem C8_resolution_deterministic (p1 p2 : str) :
  (p1 = p2 -> get_color p1 = get_color p2 /\ get_shape p1 = get_shape p2) /\
  (lower p1 = lower p2 ->
   get_color p1 = get_color p2 /\ get_shape p1 = get_shape p2) /\
  (forall d1 d2,
     Spec.first_match Spec.color_groups (lower p1) = None ->
     Spec.first_match Spec.color_groups (lower p2) = None ->
     encode (lower p1) = Ok d1 ->
     encode (lower p2) = Ok d2 ->
     MD5.digest d1 = MD5.digest d2 ->
     get_color p1 = get_color p2).
Proof.
  split; [now intros ->|]. split.
  - intros H. rewrite !GenFacts.get_color_table, !GenFacts.get_shape_table.
    now rewrite H.
  - intros d1 d2 H1 H2 E1 E2 Hd.
    rewrite !GenFacts.get_color_table, H1, H2.
    destruct (GenFacts.hash_color_digest _ _ E1) as (_ & _ & _ & -> & _).
    destruct (GenFacts.hash_color_digest _ _ E2) as (_ & _ & _ & -> & _).
    now rewrite Hd.
Qed.

(** C9.  Every colour [get_color] returns, from any of the ten table
    entries or from the hash fallback, has red, green and blue in [0,255]
    and alpha equal to 255. *)
Theorem C9_color_components (p : str) (c : PIL.color) :
  get_color p = Ok c -> Spec.opaque_bytes c.
Proof.
  rewrite GenFacts.get_color_table.
  destruct (Spec.first_match Spec.color_groups (lower p)) as [c'|] eqn:E.
  - intros [= <-]. apply GenFacts.first_match_in in E.
    pose proof GenFacts.color_groups_opaque as Hall.
    rewrite Forall_forall in Hall. now apply Hall.
  - destruct (encode (lower p)) as [data|e] eqn:He.
    + destruct (GenFacts.hash_color_digest _ _ He) as (_ & _ & _ & -> & Hop).
      now intros [= <-].
    + rewrite (GenFacts.hash_color_raise _ _ He). discriminate.
Qed.

(** C10.  For every [shape_type] other than "box", "circle", "gun" and
    "person", whatever string it is, [draw_shape] issues exactly the
    default primitive: the rectangle (8,8)-(24,24) filled with the colour
    and outlined in black. *)
Theorem C10_draw_shape_unrecognized_tag
    (img : PIL.image) (shape_type : str) (color : PIL.color) :
  ~ In shape_type [lit "box"; lit "circle"; lit "gun"; lit "person"] ->
  draw_shape img shape_type color =
  PIL.draw img (PIL.rectangle (8, 8, 24, 24) (Some color) (0, 0, 0, 255)).
Proof.
  intros H. unfold draw_shape.
  rewrite !GenFacts.str_eqb_neq; [reflexivity | | | |];
    intros ->; apply H; simpl; auto.
Qed.

End Claims.

(** ** Concrete runs *)

Section Runs.
Import Py Gen.

(** A prompt whose only bytes outside UTF-8 reached [sys.argv] as a lone
    surrogate: no table can lower-case it, and [encode] refuses it. *)
Lemma get_color_surrogate (to_lower_full : str -> nat -> N -> str) (s : str) :
  s = [0xDC80] \/ s = [104; 105; 0xDCFF] ->
  Spec.first_match Spec.color_groups (lower to_lower_full s) = None /\
  get_color to_lower_full s = Raise UnicodeEncodeError.
Proof. intros [-> | ->]; split; reflexivity. Qed.

(** C1, at "Golden Coin" (gold) and "Rusty golden sword" (brown). *)
Lemma C1_witness :
  (any_in [lit "golden"; lit "gold"; lit "coin"]
          (lower uncased (lit "Golden Coin")) = true /\
   any_in [lit "rusty"; lit "brown"; lit "silver"; lit "basic"; lit "grey"]
          (lower uncased (lit "Golden Coin")) = false /\
   get_color uncased (lit "Golden Coin") = Ok (255, 215, 0, 255)) /\
  (contains (lower uncased (lit "Rusty golden sword")) (lit "golden") = true /\
   contains (lower uncased (lit "Rusty golden sword")) (lit "rusty") = true /\
   get_color uncased (lit "Rusty golden sword") = Ok (139, 69, 19, 255)).
Proof.
  split; (split; [reflexivity|]); (split; [reflexivity|]).
  - apply (proj1 (proj2 (C1_get_color_first_match uncased (lit "Golden Coin"))));
      reflexivity.
  - apply (proj2 (proj2 (proj2
      (C1_get_color_first_match uncased (lit "Rusty golden sword")))));
      reflexivity.
Defined.

(** C3 as stated fails: "hi" followed by a lone surrogate has no colour
    keyword, and [get_color] raises instead of returning a colour. *)
Lemma C3_counterexample :
  ~ exists to_lower_full, forall p,
      Spec.first_match Spec.color_groups (lower to_lower_full p) = None ->
      exists c, get_color to_lower_full p = Ok c.
Proof.
  intros [tlf H].
  destruct (get_color_surrogate tlf [104; 105; 0xDCFF]) as [Hn Hr]; [now right|].
  destruct (H _ Hn) as [c Hc]. rewrite Hr in Hc. discriminate.
Qed.

(** C3 (amended), at "Zebra". *)
Lemma C3_witness :
  Spec.first_match Spec.color_groups (lower uncased (lit "Zebra")) = None /\
  Spec.no_surrogate (lower uncased (lit "Zebra")) = true /\
  exists data r g b,
    encode (lower uncased (lit "Zebra")) = Ok data /\
    int16 (slice (MD5.hexdigest data) 0 2) = Ok r /\
    int16 (slice (MD5.hexdigest data) 2 4) = Ok g /\
    int16 (slice (MD5.hexdigest data) 4 6) = Ok b /\
    (r, g, b, 255) = Spec.digest_color (MD5.digest data) /\
    get_color uncased (lit "Zebra") = Ok (r, g, b, 255).
Proof.
  split; [reflexivity|]. split; [reflexivity|].
  apply (C3_hash_color_of_encodable_prompt uncased (lit "Zebra")); reflexivity.
Defined.

(** C6 as stated fails: a third positional argument is accepted and the
    image is generated from the first two. *)
Lemma C6_counterexample :
  ~ exists to_lower_full, forall argv w,
      exit_status (snd (main to_lower_full writable argv w)) = 0 ->
      List.length argv = 3%nat.
Proof.
  intros [tlf H].
  specialize (H [lit "pixel_pusher_gen.py"; lit "out.png"; lit "rusty coin";
                 lit "extra"] empty_world eq_refl).
  discriminate H.
Qed.

(** C6 (amended), with one positional argument and with three. *)
Lemma C6_witness :
  ((List.length [lit "pixel_pusher_gen.py"; lit "out.png"] < 3)%nat /\
   main uncased writable [lit "pixel_pusher_gen.py"; lit "out.png"] empty_world =
     (mkWorld [Spec.usage] [], Raise (SystemExit 1))) /\
  main uncased writable
    [lit "pixel_pusher_gen.py"; lit "out.png"; lit "rusty coin"; lit "extra"]
    empty_world =
  generate_image uncased writable (lit "out.png") (lit "rusty coin") empty_world.
Proof.
  split.
  - split; [repeat constructor|].
    apply (proj1 (C6_usage_on_missing_arguments uncased writable
                    [lit "pixel_pusher_gen.py"; lit "out.png"] empty_world)).
    repeat constructor.
  - apply (proj2 (C6_usage_on_missing_arguments uncased writable
                    [lit "pixel_pusher_gen.py"; lit "out.png"; lit "rusty coin";
                     lit "extra"] empty_world)
             (lit "pixel_pusher_gen.py") (lit "out.png") (lit "rusty coin")
             [lit "extra"]).
    reflexivity.
Defined.

(** C7 as stated fails: whatever the lower-case table, [get_color] raises
    on the one-character prompt U+DC80. *)
Lemma C7_counterexample :
  ~ exists to_lower_full, forall p, exists c, get_color to_lower_full p = Ok c.
Proof.
  intros [tlf H].
  destruct (get_color_surrogate tlf [0xDC80]) as [_ Hr]; [now left|].
  destruct (H [0xDC80]) as [c Hc]. rewrite Hr in Hc. discriminate.
Qed.

(** C7 (amended), at the ASCII prompt "Hello". *)
Lemma C7_witness :
  Spec.all_ascii (lit "Hello") = true /\
  exists c, get_color uncased (lit "Hello") = Ok c.
Proof.
  split; [reflexivity|].
  apply (proj1 (proj2 (proj2
    (C7_resolution_total_on_encodable_text uncased (lit "Hello"))))).
  reflexivity.
Defined.

(** C8, at "Zebra" and "zebra". *)
Lemma C8_witness :
  Spec.first_match Spec.color_groups (lower uncased (lit "Zebra")) = None /\
  Spec.first_match Spec.color_groups (lower uncased (lit "zebra")) = None /\
  encode (lower uncased (lit "Zebra")) = Ok (lit "zebra") /\
  encode (lower uncased (lit "zebra")) = Ok (lit "zebra") /\
  get_color uncased (lit "Zebra") = get_color uncased (lit "zebra").
Proof.
  repeat (split; [reflexivity|]).
  apply (proj2 (proj2 (C8_resolution_deterministic uncased
                         (lit "Zebra") (lit "zebra")))
           (lit "zebra") (lit "zebra")); reflexivity.
Defined.

(** C9, at the empty prompt, whose colour comes from the hash fallback. *)
Lemma C9_witness :
  get_color uncased [] = Ok (212, 29, 140, 255) /\
  Spec.opaque_bytes (212, 29, 140, 255).
Proof.
  split; [vm_compute; reflexivity|].
  apply (C9_color_components uncased [] (212, 29, 140, 255)).
  vm_compute; reflexivity.
Defined.

(** C10, at the tag "Box": tags are compared case-sensitively. *)
Lemma C10_witness :
  ~ In (lit "Box") [lit "box"; lit "circle"; lit "gun"; lit "person"] /\
  draw_shape Spec.blank (lit "Box") (255, 0, 0, 255) =
  PIL.draw Spec.blank
    (PIL.rectangle (8, 8, 24, 24) (Some (255, 0, 0, 255)) (0, 0, 0, 255)).
Proof.
  assert (H : ~ In (lit "Box")
                [lit "box"; lit "circle"; lit "gun"; lit "person"]).
  { simpl. intros [H | [H | [H | [H | []]]]]; discriminate H. }
  split; [exact H|].
  apply (C10_draw_shape_unrecognized_tag Spec.blank (lit "Box") (255, 0, 0, 255) H).
Defined.

End Runs.

(** ** Further properties: keyword matching *)

Module MatchFacts.
Import Py Gen.

(** A keyword is no longer than the text it occurs in. *)
Lemma contains_length (s k : str) :
  contains s k = true -> (List.length k <= List.length s)%nat.
Proof.
  intros H. apply PyFacts.contains_app in H as (a & b & ->).
  rewrite !length_app. lia.
Qed.

(** Whatever contains a word contains every piece of it. *)
Lemma contains_piece (s k1 k k2 : str) :
  contains s (k1 ++ k ++ k2) = true -> contains s k = true.
Proof.
  intros H. apply PyFacts.contains_app in H as (a & b & ->).
  apply PyFacts.contains_app. exists (a ++ k1), (k2 ++ b).
  now rewrite <- !app_assoc.
Qed.

Lemma map_ascii_lower_ascii (s : str) :
  forallb is_ascii s = true -> forallb is_ascii (map ascii_lower s) = true.
Proof.
  induction s as [|c s IH]; simpl; [reflexivity|].
  intros H. apply andb_true_iff in H as [Hc Hs].
  now rewrite (PyFacts.ascii_lower_ascii c Hc), IH.
Qed.

Lemma ascii_lower_idem (c : N) : ascii_lower (ascii_lower c) = ascii_lower c.
Proof.
  unfold ascii_lower.
  destruct ((65 <=? c) && (c <=? 90)) eqn:E; [|now rewrite E].
  apply andb_true_iff in E as [E1 E2]. apply N.leb_le in E1, E2.
  destruct (c + 32 <=? 90) eqn:E3; [apply N.leb_le in E3; lia|].
  now rewrite andb_false_r.
Qed.

Lemma map_ascii_lower_idem (s : str) :
  map ascii_lower (map ascii_lower s) = map ascii_lower s.
Proof.
  rewrite map_map. apply map_ext. intros c. apply ascii_lower_idem.
Qed.

(** ASCII text is its own UTF-8 encoding. *)
Lemma encode_ascii (s : str) :
  forallb is_ascii s = true -> encode s = Ok s.
Proof.
  induction s as [|c s IH]; simpl; [reflexivity|].
  intros H. apply andb_true_iff in H as [Hc Hs].
  unfold utf8_char. unfold is_ascii in Hc. rewrite Hc. simpl.
  now rewrite (IH Hs).
Qed.

Section AnyCase.
Variable to_lower_full : str -> nat -> N -> str.

(** An ASCII word that occurs in the prompt in any letter case occurs in
    the lower-cased prompt in lower case, whatever surrounds it. *)
Lemma contains_lower_any_case (p K : str) :
  forallb is_ascii K = true ->
  contains p K = true ->
  contains (Py.lower to_lower_full p) (map ascii_lower K) = true.
Proof.
  intros HK H. apply PyFacts.contains_app in H as (a & b & ->).
  apply PyFacts.contains_app. unfold Py.lower.
  rewrite !PyFacts.lower_from_app.
  rewrite (PyFacts.lower_from_ascii to_lower_full _ _ K HK).
  eauto.
Qed.

Lemma lower_ascii_idem (p : str) :
  forallb is_ascii p = true ->
  Py.lower to_lower_full (map ascii_lower p) = Py.lower to_lower_full p.
Proof.
  intros H. unfold Py.lower.
  rewrite !PyFacts.lower_from_ascii by (try apply map_ascii_lower_ascii; exact H).
  apply map_ascii_lower_idem.
Qed.

End AnyCase.

End MatchFacts.

Section Matching.
Import Py Gen.

Variable to_lower_full : str -> nat -> N -> str.

Local Abbreviation lower := (Gen.lower to_lower_full).
Local Abbreviation get_color := (Gen.get_color to_lower_full).
Local Abbreviation get_shape := (Gen.get_shape to_lower_full).

(** X1.  Keywords match in any letter case and anywhere in the prompt: if
    "rusty" or "brown" occurs in the prompt in some mix of upper and lower
    case, [get_color] returns (139,69,19,255), and if "box" so occurs,
    [get_shape] returns "box", whatever else the prompt holds. *)
Theorem X1_top_keywords_any_case (p K : str) :
  Spec.all_ascii K = true ->
  contains p K = true ->
  (map ascii_lower K = lit "rusty" \/ map ascii_lower K = lit "brown" ->
   get_color p = Ok (139, 69, 19, 255)) /\
  (map ascii_lower K = lit "box" -> get_shape p = lit "box").
Proof.
  intros HK Hin.
  pose proof (MatchFacts.contains_lower_any_case to_lower_full p K HK Hin) as H.
  fold (lower p) in H. split.
  - intros HKk. unfold Gen.get_color. cbv zeta.
    destruct HKk as [E | E]; rewrite E in H; rewrite H;
      now rewrite ?orb_true_r.
  - intros E. rewrite E in H. unfold Gen.get_shape. cbv zeta.
    now rewrite H, orb_true_r.
Qed.

(** X2.  Two keyword tests decide nothing on their own: "lootbox" only
    occurs where "box" does and "golden" only where "gold" does.  So
    [get_shape] returns "box" exactly when "box" occurs in the lower-cased
    prompt, and the gold group matches exactly when "gold" or "coin"
    occurs. *)
Theorem X2_subsumed_keywords (p : str) :
  (get_shape p = lit "box" <-> contains (lower p) (lit "box") = true) /\
  any_in [lit "golden"; lit "gold"; lit "coin"] (lower p) =
    contains (lower p) (lit "gold") || contains (lower p) (lit "coin").
Proof.
  split.
  - unfold Gen.get_shape. cbv zeta.
    destruct (contains (lower p) (lit "box")) eqn:Hb.
    + rewrite orb_true_r. split; reflexivity.
    + destruct (contains (lower p) (lit "lootbox")) eqn:Hl.
      * apply (MatchFacts.contains_piece _ (lit "loot") (lit "box") []) in Hl.
        congruence.
      * cbn [orb]. split; [|discriminate].
        repeat match goal with
               | |- context [if ?b then _ else _] => destruct b
               end; discriminate.
  - cbn [any_in existsb]. rewrite orb_false_r.
    destruct (contains (lower p) (lit "golden")) eqn:Hg; [|reflexivity].
    apply (MatchFacts.contains_piece _ [] (lit "gold") (lit "en")) in Hg.
    now rewrite Hg.
Qed.

End Matching.

(** ** Further properties: how colour and shape go together *)

Module PairFacts.
Import Py Gen.

(** Settle the keyword tests that occur in hypothesis [H]. *)
Ltac settle_in H :=
  repeat match type of H with
         | context [contains ?s ?k] =>
             destruct (contains s k) eqn:?; cbn [orb] in H;
             try (exfalso; revert H; clear; vm_compute; discriminate)
         end.

(** A keyword test cannot succeed on a text shorter than the keyword. *)
Ltac too_short Hlen :=
  repeat match goal with
         | |- context [contains ?s ?k] =>
             let E := fresh "E" in
             destruct (contains s k) eqn:E;
             [ exfalso; apply MatchFacts.contains_length in E;
               let n := eval vm_compute in (List.length k) in
               change (List.length k) with n in E; lia
             | cbn [orb] ]
         end.

Section Pairs.
Variable to_lower_full : str -> nat -> N -> str.

Local Abbreviation lower := (Gen.lower to_lower_full).
Local Abbreviation get_color := (Gen.get_color to_lower_full).
Local Abbreviation get_shape := (Gen.get_shape to_lower_full).

(** What a "person" answer of [get_shape] says about the prompt. *)
Lemma get_shape_person_inv (p : str) :
  get_shape p = lit "person" ->
  contains (lower p) (lit "coin") = false /\
  contains (lower p) (lit "gun") = false /\
  any_in [lit "blacksmith"; lit "explorer"; lit "merchant";
          lit "gambler"; lit "farmer"; lit "scholar"] (lower p) = true.
Proof.
  intros H. unfold Gen.get_shape in H. cbv zeta in H.
  settle_in H.
  destruct (any_in _ (lower p)) eqn:Hany.
  - auto.
  - exfalso; revert H; clear; vm_compute; discriminate.
Qed.

End Pairs.

End PairFacts.

Section Pairing.
Import Py Gen.

Variable to_lower_full : str -> nat -> N -> str.

Local Abbreviation lower := (Gen.lower to_lower_full).
Local Abbreviation get_color := (Gen.get_color to_lower_full).
Local Abbreviation get_shape := (Gen.get_shape to_lower_full).

(** X3.  A sprite drawn as a person never gets a hash colour: whenever
    [get_shape] answers "person", [get_color] returns without raising, the
    colour is one of the table, and it is not the ray-gun red. *)
Theorem X3_person_has_table_color (p : str) :
  get_shape p = lit "person" ->
  exists c,
    get_color p = Ok c /\
    In c (map snd Spec.color_groups) /\
    c <> (255, 0, 0, 255).
Proof.
  intros H. apply PairFacts.get_shape_person_inv in H as (_ & Hgun & Hany).
  assert (Hray : contains (lower p) (lit "ray gun") = false).
  { destruct (contains (lower p) (lit "ray gun")) eqn:E; [|reflexivity].
    apply (MatchFacts.contains_piece _ (lit "ray ") (lit "gun") []) in E.
    congruence. }
  cbn [any_in existsb] in Hany.
  unfold Gen.get_color. cbv zeta. rewrite Hray.
  repeat match goal with
         | |- context [contains ?s ?k] =>
             destruct (contains s k) eqn:?; cbn [orb] in Hany |- *
         end;
    try discriminate Hany;
    (eexists; split; [reflexivity|]; split; [simpl; tauto | discriminate]).
Qed.

(** X4.  A prompt naming a coin is drawn as a box or a circle and coloured
    brown, silver or gold; a prompt naming a ray gun is drawn as a box, a
    circle or a gun, never as a person or the default square. *)
Theorem X4_coin_and_ray_gun (p : str) :
  (contains (lower p) (lit "coin") = true ->
   In (get_shape p) [lit "box"; lit "circle"] /\
   exists c, get_color p = Ok c /\
             In c [(139, 69, 19, 255); (192, 192, 192, 255); (255, 215, 0, 255)]) /\
  (contains (lower p) (lit "ray gun") = true ->
   In (get_shape p) [lit "box"; lit "circle"; lit "gun"]).
Proof.
  split.
  - intros Hc. split.
    + unfold Gen.get_shape. cbv zeta. rewrite Hc.
      destruct (contains (lower p) (lit "lootbox") || contains (lower p) (lit "box"));
        simpl; auto.
    + unfold Gen.get_color. cbv zeta. rewrite Hc, !orb_true_r.
      destruct (contains (lower p) (lit "rusty") || contains (lower p) (lit "brown"));
        [eexists; split; [reflexivity | simpl; auto]|].
      destruct (contains (lower p) (lit "silver") || contains (lower p) (lit "basic")
                || contains (lower p) (lit "grey"));
        eexists; (split; [reflexivity | simpl; auto]).
  - intros Hr.
    apply (MatchFacts.contains_piece _ (lit "ray ") (lit "gun") []) in Hr.
    unfold Gen.get_shape. cbv zeta. rewrite Hr.
    destruct (contains (lower p) (lit "lootbox") || contains (lower p) (lit "box"));
      [simpl; auto|].
    destruct (contains (lower p) (lit "coin") || contains (lower p) (lit "money"));
      simpl; auto.
Qed.

(** X5.  Prompts too short to hold a keyword fall through: with fewer
    than three characters after lower-casing the shape is "default", and
    with fewer than four the colour is the hash colour.  Lower-casing keeps
    the length of an ASCII prompt. *)
Theorem X5_short_prompts (p : str) :
  ((List.length (lower p) < 3)%nat -> get_shape p = lit "default") /\
  ((List.length (lower p) < 4)%nat -> get_color p = hash_color (lower p)) /\
  (Spec.all_ascii p = true -> List.length (lower p) = List.length p).
Proof.
  split; [|split].
  - intros Hlen. unfold Gen.get_shape. cbv zeta. cbn [any_in existsb].
    PairFacts.too_short Hlen. reflexivity.
  - intros Hlen. unfold Gen.get_color. cbv zeta.
    PairFacts.too_short Hlen. reflexivity.
  - intros Ha. rewrite (GenFacts.lower_ascii_prompt to_lower_full p Ha).
    apply length_map.
Qed.

(** X6.  For an ASCII prompt without colour keyword the colour is made of
    the first three bytes of the MD5 digest of its characters, letters in
    lower case, one byte each. *)
Theorem X6_ascii_fallback_color (p : str) :
  Spec.all_ascii p = true ->
  Spec.first_match Spec.color_groups (map ascii_lower p) = None ->
  get_color p = Ok (Spec.digest_color (MD5.digest (map ascii_lower p))).
Proof.
  intros Ha Hn.
  rewrite GenFacts.get_color_table.
  rewrite (GenFacts.lower_ascii_prompt to_lower_full p Ha), Hn.
  apply GenFacts.hash_color_digest.
  apply MatchFacts.encode_ascii. now apply MatchFacts.map_ascii_lower_ascii.
Qed.

(** X7.  Matching ignores letter case: two ASCII prompts that differ only
    in the case of their letters get the same colour and the same shape,
    and lower-casing a prompt beforehand changes neither. *)
Theorem X7_case_insensitive (p1 p2 : str) :
  Spec.all_ascii p1 = true ->
  Spec.all_ascii p2 = true ->
  map ascii_lower p1 = map ascii_lower p2 ->
  get_color p1 = get_color p2 /\
  get_shape p1 = get_shape p2 /\
  get_color (map ascii_lower p1) = get_color p1 /\
  get_shape (map ascii_lower p1) = get_shape p1.
Proof.
  intros H1 H2 E.
  pose proof (GenFacts.lower_ascii_prompt to_lower_full p1 H1) as L1.
  pose proof (GenFacts.lower_ascii_prompt to_lower_full p2 H2) as L2.
  pose proof (MatchFacts.lower_ascii_idem to_lower_full p1 H1) as L3.
  fold (lower (map ascii_lower p1)) (lower p1) in L3.
  rewrite !GenFacts.get_color_table, !GenFacts.get_shape_table.
  rewrite L3, L1, L2, E. repeat split.
Qed.

End Pairing.

(** ** Further properties: the renderer *)

Module Canvas.
Import Py.

(** A bounding box with ordered corners inside a canvas of size [sz]. *)
Definition box_inside (sz : N * N) (xy : N * N * N * N) : bool :=
  let '(x0, y0, x1, y1) := xy in
  (x0 <=? x1) && (y0 <=? y1) && (x1 <? fst sz) && (y1 <? snd sz).

Definition point_inside (sz : N * N) (pt : N * N) : bool :=
  (fst pt <? fst sz) && (snd pt <? snd sz).

Definition inside (sz : N * N) (op : PIL.draw_op) : bool :=
  match op with
  | PIL.rectangle xy _ _ => box_inside sz xy
  | PIL.ellipse xy _ _ => box_inside sz xy
  | PIL.polygon pts _ _ => forallb (point_inside sz) pts
  end.

Definition fill_of (op : PIL.draw_op) : option PIL.color :=
  match op with
  | PIL.rectangle _ f _ | PIL.ellipse _ f _ | PIL.polygon _ f _ => f
  end.

Definition outline_of (op : PIL.draw_op) : PIL.color :=
  match op with
  | PIL.rectangle _ _ o | PIL.ellipse _ _ o | PIL.polygon _ _ o => o
  end.

End Canvas.

Section Rendering.
Import Py Gen.

(** The primitives [draw_shape] adds to a canvas, by cases on the tag. *)
Lemma draw_shape_cases (img : PIL.image) (tag : str) (color : PIL.color) :
  exists ops,
    draw_shape img tag color =
      PIL.mkImage (PIL.mode img) (PIL.size img) (PIL.background img)
                  (PIL.drawn img ++ ops) /\
    In ops
      [ [PIL.rectangle (4, 4, 27, 27) (Some color) (0, 0, 0, 255);
         PIL.rectangle (6, 6, 25, 25) None (255, 255, 255, 100)];
        [PIL.ellipse (4, 4, 27, 27) (Some color) (0, 0, 0, 255);
         PIL.ellipse (8, 8, 20, 20) None (255, 255, 255, 100)];
        [PIL.polygon [(8, 10); (24, 10); (24, 16); (14, 16); (14, 24); (8, 24)]
                     (Some color) (0, 0, 0, 255)];
        [PIL.ellipse (10, 4, 22, 16) (Some (255, 220, 177, 255)) (0, 0, 0, 255);
         PIL.rectangle (8, 16, 24, 30) (Some color) (0, 0, 0, 255)];
        [PIL.rectangle (8, 8, 24, 24) (Some color) (0, 0, 0, 255)] ].
Proof.
  unfold draw_shape.
  repeat match goal with
         | |- context [str_eqb ?a ?b] => destruct (str_eqb a b)
         end;
    unfold PIL.draw; cbn [PIL.mode PIL.size PIL.background PIL.drawn];
    rewrite <- ?app_assoc; cbn [app];
    eexists; (split; [reflexivity|]); simpl; auto 6.
Qed.

(** X8.  Whatever the tag string and the colour, every primitive
    [draw_shape] issues has its corners in order (x0 <= x1, y0 <= y1) and
    lies inside the 32x32 canvas; a canvas whose primitives are inside
    stays so. *)
Theorem X8_primitives_inside_canvas
    (img : PIL.image) (tag : str) (color : PIL.color) :
  forallb (Canvas.inside (32, 32)) (PIL.drawn img) = true ->
  forallb (Canvas.inside (32, 32))
          (PIL.drawn (draw_shape img tag color)) = true.
Proof.
  intros H.
  destruct (draw_shape_cases img tag color) as (ops & -> & Hin).
  cbn [PIL.drawn]. rewrite forallb_app, H. simpl in Hin.
  repeat (destruct Hin as [<- | Hin]; [reflexivity|]). destruct Hin.
Qed.

(** X9.  Whatever the tag string, [draw_shape] adds one or two primitives
    after those already drawn, one of them filled with the given colour,
    and every outline is black, except that of an unfilled highlight, which
    is translucent white. *)
Theorem X9_color_reaches_canvas
    (img : PIL.image) (tag : str) (color : PIL.color) :
  exists ops,
    PIL.drawn (draw_shape img tag color) = PIL.drawn img ++ ops /\
    (1 <= List.length ops <= 2)%nat /\
    (exists op, In op ops /\ Canvas.fill_of op = Some color) /\
    (forall op, In op ops ->
       Canvas.outline_of op = (0, 0, 0, 255) \/
       (Canvas.outline_of op = (255, 255, 255, 100) /\ Canvas.fill_of op = None)).
Proof.
  destruct (draw_shape_cases img tag color) as (ops & -> & Hin).
  exists ops. split; [reflexivity|]. simpl in Hin.
  repeat (destruct Hin as [<- | Hin];
    [ split; [simpl; lia|]; split;
      [ simpl;
        first [ eexists; split; [left; reflexivity | reflexivity]
              | eexists; split; [right; left; reflexivity | reflexivity] ]
      | intros op Hop; simpl in Hop;
        repeat (destruct Hop as [<- | Hop]; [simpl; auto|]); destruct Hop ]
    | ]).
  destruct Hin.
Qed.

End Rendering.

(** ** Further properties: the digest read back, and what a run leaves behind *)

Module HexFacts.
Import Py.

Lemma slice_pairs (bs : list N) (i : nat) :
  (i < List.length bs)%nat ->
  slice (flat_map MD5.hex_of_byte bs) (2 * i) (2 * i + 2) =
  MD5.hex_of_byte (nth i bs 0).
Proof.
  unfold slice. replace (2 * i + 2 - 2 * i)%nat with 2%nat by lia.
  revert i; induction bs as [|b bs IH]; intros i Hi; simpl in Hi; [lia|].
  destruct i as [|i].
  - reflexivity.
  - replace (2 * S i)%nat with (S (S (2 * i))) by lia.
    cbn [flat_map MD5.hex_of_byte app skipn nth].
    apply IH. lia.
Qed.

Lemma flat_map_hex_length (bs : list N) :
  List.length (flat_map MD5.hex_of_byte bs) = (2 * List.length bs)%nat.
Proof. induction bs as [|b bs IH]; simpl; [reflexivity | rewrite IH; lia]. Qed.

End HexFacts.

Section Runs2.
Import Py Gen.

Variable to_lower_full : str -> nat -> N -> str.
Variable save_error : str -> option exn.

Local Abbreviation get_color := (Gen.get_color to_lower_full).
Local Abbreviation get_shape := (Gen.get_shape to_lower_full).
Local Abbreviation generate_image := (Gen.generate_image to_lower_full save_error).
Local Abbreviation main := (Gen.main to_lower_full save_error).


(** X10.  The hexadecimal digest has thirty-two characters, and reading
    any of its sixteen character pairs with [int(_, 16)] succeeds and gives
    the corresponding digest byte, a value below 256: the slices of
    [get_color] are always in range and parse. *)
Theorem X10_hexdigest_pairs (data : bytes) (i : nat) :
  (i < 16)%nat ->
  List.length (MD5.hexdigest data) = 32%nat /\
  int16 (slice (MD5.hexdigest data) (2 * i) (2 * i + 2)) =
    Ok (nth i (MD5.digest data) 0) /\
  nth i (MD5.digest data) 0 < 256.
Proof.
  intros Hi. pose proof (MD5Facts.digest_length data) as Hl.
  assert (Hb : nth i (MD5.digest data) 0 < 256).
  { apply MD5Facts.digest_bytes with (msg := data). apply nth_In. lia. }
  unfold MD5.hexdigest.
  rewrite HexFacts.flat_map_hex_length, Hl.
  rewrite HexFacts.slice_pairs by lia.
  rewrite PyFacts.int16_hex_of_byte by exact Hb. auto.
Qed.



End Runs2.

Section Failing.
Import Py Gen.

Variable to_lower_full : str -> nat -> N -> str.
Variable save_error : str -> option exn.

(** X13.  When the colour of the prompt cannot be resolved the run stops
    before anything is drawn to a file: with two or more arguments and a
    prompt on which [get_color] raises, the script writes no file, prints
    nothing to standard output, and ends with [UnicodeEncodeError] and exit
    status 1, whatever the output path. *)
Theorem X13_unresolved_color_aborts (argv : list str) (w : world) (e : exn) :
  (3 <= List.length argv)%nat ->
  Gen.get_color to_lower_full (nth 2 argv []) = Raise e ->
  Gen.main to_lower_full save_error argv w = (w, Raise UnicodeEncodeError) /\
  exit_status (snd (Gen.main to_lower_full save_error argv w)) = 1.
Proof.
  intros Hlen He.
  assert (e = UnicodeEncodeError) as ->.
  { revert He. rewrite GenFacts.get_color_table.
    destruct (Spec.first_match _ _); [discriminate|].
    destruct (GenFacts.hash_color_cases (Gen.lower to_lower_full (nth 2 argv [])))
      as [[_ (data & _ & ->)] | [_ ->]]; [discriminate | now intros [= <-]]. }
  assert (Hm : Gen.main to_lower_full save_error argv w =
               (w, Raise UnicodeEncodeError)).
  { unfold Gen.main.
    replace (List.length argv <? 3)%nat with false
      by (symmetry; apply Nat.ltb_ge; exact Hlen).
    cbv zeta. unfold Gen.generate_image, seq_, lift. now rewrite He. }
  split; [exact Hm | now rewrite Hm].
Qed.

End Failing.

(** ** Concrete runs of the further properties *)

Section MoreRuns.
Import Py Gen.

(** X1, at "My RuStY sword". *)
Lemma X1_witness :
  Spec.all_ascii (lit "RuStY") = true /\
  contains (lit "My RuStY sword") (lit "RuStY") = true /\
  map ascii_lower (lit "RuStY") = lit "rusty" /\
  get_color uncased (lit "My RuStY sword") = Ok (139, 69, 19, 255).
Proof.
  repeat (split; [reflexivity|]).
  apply (proj1 (X1_top_keywords_any_case uncased
                  (lit "My RuStY sword") (lit "RuStY") eq_refl eq_refl)).
  left; reflexivity.
Defined.

(** X3, at "Golden Farmer". *)
Lemma X3_witness :
  get_shape uncased (lit "Golden Farmer") = lit "person" /\
  exists c,
    get_color uncased (lit "Golden Farmer") = Ok c /\
    In c (map snd Spec.color_groups) /\
    c <> (255, 0, 0, 255).
Proof.
  split; [reflexivity|].
  apply (X3_person_has_table_color uncased (lit "Golden Farmer")).
  reflexivity.
Defined.

(** X4, at "Silver Coin". *)
Lemma X4_witness :
  contains (lower uncased (lit "Silver Coin")) (lit "coin") = true /\
  In (get_shape uncased (lit "Silver Coin")) [lit "box"; lit "circle"] /\
  exists c,
    get_color uncased (lit "Silver Coin") = Ok c /\
    In c [(139, 69, 19, 255); (192, 192, 192, 255); (255, 215, 0, 255)].
Proof.
  split; [reflexivity|].
  apply (proj1 (X4_coin_and_ray_gun uncased (lit "Silver Coin"))).
  reflexivity.
Defined.

(** X5, at the two-letter prompt "Ax". *)
Lemma X5_witness :
  (List.length (lower uncased (lit "Ax")) < 3)%nat /\
  get_shape uncased (lit "Ax") = lit "default".
Proof.
  split; [repeat constructor|].
  apply (proj1 (X5_short_prompts uncased (lit "Ax"))).
  repeat constructor.
Defined.

(** X6, at "Zebra". *)
Lemma X6_witness :
  Spec.all_ascii (lit "Zebra") = true /\
  Spec.first_match Spec.color_groups (map ascii_lower (lit "Zebra")) = None /\
  get_color uncased (lit "Zebra") =
    Ok (Spec.digest_color (MD5.digest (lit "zebra"))).
Proof.
  repeat (split; [reflexivity|]).
  apply (X6_ascii_fallback_color uncased (lit "Zebra")); reflexivity.
Defined.

(** X7, at "GOLD coin" and "gold COIN". *)
Lemma X7_witness :
  Spec.all_ascii (lit "GOLD coin") = true /\
  Spec.all_ascii (lit "gold COIN") = true /\
  map ascii_lower (lit "GOLD coin") = map ascii_lower (lit "gold COIN") /\
  get_color uncased (lit "GOLD coin") = get_color uncased (lit "gold COIN") /\
  get_shape uncased (lit "GOLD coin") = get_shape uncased (lit "gold COIN").
Proof.
  repeat (split; [reflexivity|]).
  pose proof (X7_case_insensitive uncased (lit "GOLD coin") (lit "gold COIN")
                eq_refl eq_refl eq_refl) as (H1 & H2 & _).
  exact H2.
Defined.

(** X8, at the blank canvas and an unknown tag. *)
Lemma X8_witness :
  forallb (Canvas.inside (32, 32)) (PIL.drawn Spec.blank) = true /\
  forallb (Canvas.inside (32, 32))
          (PIL.drawn (draw_shape Spec.blank (lit "wizard") (1, 2, 3, 255))) = true.
Proof.
  split; [reflexivity|].
  apply (X8_primitives_inside_canvas Spec.blank (lit "wizard") (1, 2, 3, 255)).
  reflexivity.
Defined.

(** X10, at the third pair of the digest of "abc". *)
Lemma X10_witness :
  (2 < 16)%nat /\
  int16 (slice (MD5.hexdigest (lit "abc")) 4 6) =
    Ok (nth 2 (MD5.digest (lit "abc")) 0).
Proof.
  split; [repeat constructor|].
  apply (proj1 (proj2 (X10_hexdigest_pairs (lit "abc") 2
                         ltac:(repeat constructor)))).
Defined.

(** X13, at a prompt that is one lone surrogate. *)
Lemma X13_witness :
  (3 <= List.length [lit "pixel_pusher_gen.py"; lit "out.png"; [0xDC80%N]])%nat /\
  get_color uncased [0xDC80] = Raise UnicodeEncodeError /\
  main uncased writable [lit "pixel_pusher_gen.py"; lit "out.png"; [0xDC80%N]]
       empty_world = (empty_world, Raise UnicodeEncodeError).
Proof.
  split; [repeat constructor|]. split; [reflexivity|].
  apply (proj1 (X13_unresolved_color_aborts uncased writable
                  [lit "pixel_pusher_gen.py"; lit "out.png"; [0xDC80%N]]
                  empty_world UnicodeEncodeError
                  ltac:(repeat constructor) eq_refl)).
Defined.

End MoreRuns.
